(** * faust.serializers.registry: the serializer registry

    A shallow embedding of [Registry] (src/faust/serializers/registry.py):
    [__init__], [loads_key], [_loads_model], [_loads], [loads_value],
    [dumps_key] and [dumps_value].  Python values, exception objects and the calls made to
    the collaborating modules (codecs, models, compat helpers) are explicit:
    every operation returns the list of collaborator calls it made together
    with either its return value or the exception it raised. *)

From Stdlib Require Import String List Bool ZArith Lia.
From Stdlib.Strings Require Import Byte.
Import ListNotations.
Set Warnings "-register-all".
Local Open Scope string_scope.
Local Open Scope list_scope.

(** ** Python data *)

(** [CodecArg = Optional[Union[CodecT, str]]]. *)
Inductive Codec : Type :=
| CodecName (name : string)      (* a codec given by name, e.g. 'json' *)
| CodecObj (id : nat).           (* a CodecT instance *)

Definition CodecArg : Type := option Codec.

(** Truth value of a codec argument, as tested by [or] and [if]:
    [None] and the empty string are false, everything else is true. *)
Definition truthy_codec (c : CodecArg) : bool :=
  match c with
  | None => false
  | Some (CodecName EmptyString) => false
  | Some _ => true
  end.

(** Python's [a or b] on codec arguments. *)
Definition codec_or (a b : CodecArg) : CodecArg :=
  if truthy_codec a then a else b.

(** A model class; [options_serializer] is [cls._options.serializer]. *)
Record ModelType : Type := mkModelType {
  model_name : string;
  options_serializer : CodecArg
}.

Inductive pyobj : Type :=
| VNone
| VBytes (b : list byte)
| VStr (s : string)
| VInt (n : Z)
| VDict (items : list (string * pyobj))
| VModel (cls : ModelType) (fields : pyobj).   (* an instance of [cls] *)

(** Classes that appear as second argument of [isinstance]; every value is
    an instance of [object], and [None] of [NoneType]. *)
Inductive PyType : Type :=
| TyBytes | TyStr | TyInt | TyDict | TyModelT | TyNoneType | TyObject.

Definition isinstance (v : pyobj) (t : PyType) : bool :=
  match v, t with
  | _, TyObject => true
  | VNone, TyNoneType => true
  | VBytes _, TyBytes => true
  | VStr _, TyStr => true
  | VInt _, TyInt => true
  | VDict _, TyDict => true
  | VModel _ _, TyModelT => true
  | _, _ => false
  end.

(** [IsInstanceArg = Tuple[Type, ...]]: [isinstance(v, (t1, ..., tn))]. *)
Definition IsInstanceArg : Type := list PyType.

Definition isinstance_any (v : pyobj) (ts : IsInstanceArg) : bool :=
  existsb (isinstance v) ts.

Definition is_None (v : pyobj) : bool :=
  match v with VNone => true | _ => false end.

(** The [typ] argument: [ModelArg = Union[Type[ModelT], Type[bytes], Type[str]]]. *)
Inductive ModelArg : Type :=
| ArgStr                         (* the class [str] *)
| ArgBytes                       (* the class [bytes] *)
| ArgModel (cls : ModelType).    (* a model class *)

(** ** Exceptions *)

Inductive ExcClass : Type :=
| KeyboardInterrupt | SystemExit | GeneratorExit   (* BaseException, not Exception *)
| MemoryError
| AttributeError
| KeyDecodeError | ValueDecodeError                (* faust.exceptions *)
| OtherException (name : string).                  (* any other subclass of Exception *)

(** An exception object: its class, [str(exc)] and [exc.__cause__]. *)
Inductive exc : Type :=
| mk_exc (cls : ExcClass) (str : string) (cause : option exc).

Definition exc_class (e : exc) : ExcClass := let 'mk_exc c _ _ := e in c.
Definition exc_str (e : exc) : string := let 'mk_exc _ s _ := e in s.
Definition exc_cause (e : exc) : option exc := let 'mk_exc _ _ c := e in c.

(** The two classes named in [except] clauses of the registry. *)
Inductive ExceptClause : Type := ExceptMemoryError | ExceptException.

Definition is_Exception (e : exc) : bool :=
  match exc_class e with
  | KeyboardInterrupt | SystemExit | GeneratorExit => false
  | _ => true
  end.

Definition is_MemoryError (e : exc) : bool :=
  match exc_class e with MemoryError => true | _ => false end.

Definition matches (e : exc) (c : ExceptClause) : bool :=
  match c with
  | ExceptMemoryError => is_MemoryError e
  | ExceptException => is_Exception e
  end.

(** ** Results, collaborator calls and the call-logging monad *)

Inductive result (A : Type) : Type :=
| Ok (a : A)
| Raise (e : exc).
Arguments Ok {A} a.
Arguments Raise {A} e.

(** A call made by the registry to one of its collaborators. *)
Inductive event : Type :=
| ELoads (codec : CodecArg) (data : pyobj)          (* codecs.loads(codec, data) *)
| EDumps (codec : CodecArg) (obj : pyobj)           (* codecs.dumps(codec, obj) *)
| EWantStr (v : pyobj)                              (* want_str(v) *)
| EWantBytes (v : pyobj)                            (* want_bytes(v) *)
| EMaybeNamespace (data : pyobj)                    (* Model._maybe_namespace(data) *)
| EMaybeReconstruct (data : pyobj)                  (* Model._maybe_reconstruct(data) *)
| EConstruct (cls : ModelType) (data : pyobj)       (* cls(data) *)
| EModelDumps (inst : pyobj) (codec : CodecArg).    (* inst.dumps(serializer=codec) *)

Definition trace : Type := list event.

Definition M (A : Type) : Type := (trace * result A)%type.

Definition ret {A} (a : A) : M A := ([], Ok a).
Definition raise {A} (e : exc) : M A := ([], Raise e).

Definition bind {A B} (m : M A) (f : A -> M B) : M B :=
  match m with
  | (t, Ok a) => let '(t', r) := f a in (t ++ t', r)
  | (t, Raise e) => (t, Raise e)
  end.

Notation "x <- m ;; k" := (bind m (fun x => k))
  (at level 61, m at next level, right associativity).

(** One call to a collaborator: logged, then its outcome. *)
Definition call {A} (ev : event) (r : result A) : M A := ([ev], r).

(** [try: body / except c1: h1 / except c2: h2 ...]: the first clause whose
    class the exception is an instance of handles it; an exception no clause
    matches propagates. *)
Definition try_except {A} (body : M A)
    (handlers : list (ExceptClause * (exc -> M A))) : M A :=
  match body with
  | (t, Ok a) => (t, Ok a)
  | (t, Raise e) =>
      match find (fun h => matches e (fst h)) handlers with
      | Some h => let '(t', r) := snd h e in (t ++ t', r)
      | None => (t, Raise e)
      end
  end.

(** [raise cls(str(exc)) from exc]. *)
Definition raise_from {A} (cls : ExcClass) (e : exc) : M A :=
  raise (mk_exc cls (exc_str e) (Some e)).

(** The codecs that the calls of a trace were made with, in call order. *)
Definition codecs_used (t : trace) : list CodecArg :=
  flat_map (fun ev =>
    match ev with
    | ELoads c _ | EDumps c _ | EModelDumps _ c => [c]
    | _ => []
    end) t.

(** ** The collaborators

    The registry consumes the codec functions of [faust.serializers.codecs],
    the helpers of [faust.utils.compat] and the model classes of
    [faust.models]; none of them is part of registry.py, so they are taken
    as an interface. *)

Class Capabilities : Type := {
  (* codecs.loads(codec, data) and codecs.dumps(codec, obj) *)
  codec_loads : CodecArg -> pyobj -> result pyobj;
  codec_dumps : CodecArg -> pyobj -> result pyobj;
  (* compat.want_str(v) and compat.want_bytes(v) *)
  compat_want_str : pyobj -> result pyobj;
  compat_want_bytes : pyobj -> result pyobj;
  (* the global tag -> class lookup on the tag embedded in decoded data:
     [None] when the data carries no tag *)
  recognized_tag : pyobj -> result (option ModelType);
  (* body of the constructor cls(data): the fields of the new instance *)
  model_init : ModelType -> pyobj -> result pyobj;
  (* inst.dumps(serializer=codec) for an instance of cls with these fields *)
  model_dumps : ModelType -> pyobj -> CodecArg -> result pyobj
}.

(** ** The registry *)

Record Registry : Type := mkRegistry {
  key_serializer : CodecArg;
  value_serializer : CodecArg
}.

(** [Registry()]: [key_serializer=None, value_serializer='json']. *)
Definition Registry_default : Registry :=
  mkRegistry None (Some (CodecName "json")).

(** [skip: IsInstanceArg = (bytes,)]. *)
Definition default_skip : IsInstanceArg := [TyBytes].

Section RegistryOps.

Context {caps : Capabilities}.
Variable self : Registry.

Definition want_str (v : pyobj) : M pyobj :=
  call (EWantStr v) (compat_want_str v).

Definition want_bytes (v : pyobj) : M pyobj :=
  call (EWantBytes v) (compat_want_bytes v).

Definition dumps (serializer : CodecArg) (obj : pyobj) : M pyobj :=
  call (EDumps serializer obj) (codec_dumps serializer obj).

(** [cls(data)]: always an instance of [cls] when it returns. *)
Definition construct (cls : ModelType) (data : pyobj) : M pyobj :=
  fields <- call (EConstruct cls data) (model_init cls data) ;;
  ret (VModel cls fields).

(** [inst.dumps(serializer=serializer)]; only called on model instances. *)
Definition Model_dumps (inst : pyobj) (serializer : CodecArg) : M pyobj :=
  match inst with
  | VModel cls fields =>
      call (EModelDumps inst serializer) (model_dumps cls fields serializer)
  | _ =>
      raise (mk_exc AttributeError "object has no attribute 'dumps'" None)
  end.

(** Modelled from the spec: [Model._maybe_namespace] (faust.models, absent
    from the sources at hand): asks whether the decoded primitive carries a
    recognized type tag and, if so, which concrete model class it names. *)
Definition _maybe_namespace (data : pyobj) : M (option ModelType) :=
  call (EMaybeNamespace data) (recognized_tag data).

(** Modelled from the spec: [Model._maybe_reconstruct] (faust.models, absent
    from the sources at hand): if the decoded primitive carries a type tag
    recognized by the model registry, rehydrate it to that concrete model
    class; otherwise keep the primitive as it is. *)
Definition _maybe_reconstruct (data : pyobj) : M pyobj :=
  tag <- call (EMaybeReconstruct data) (recognized_tag data) ;;
  match tag with
  | Some cls => construct cls data
  | None => ret data
  end.

(** [Registry._loads]. *)
Definition _loads (serializer : CodecArg) (data : pyobj) : M pyobj :=
  call (ELoads serializer data) (codec_loads serializer data).

(** [Registry._loads_model].  [typ] is whatever the caller passed, cast to a
    model class: reading [typ._options] fails when it is not one. *)
Definition _loads_model (typ : option ModelArg)
    (default_serializer : CodecArg) (data : pyobj) : M pyobj :=
  match typ with
  | Some (ArgModel cls) =>
      data <- _loads (codec_or (options_serializer cls) default_serializer) data ;;
      self_cls <- _maybe_namespace data ;;
      match self_cls with
      | Some c => construct c data
      | None => construct cls data
      end
  | Some ArgStr =>
      raise (mk_exc AttributeError
               "type object 'str' has no attribute '_options'" None)
  | Some ArgBytes =>
      raise (mk_exc AttributeError
               "type object 'bytes' has no attribute '_options'" None)
  | None =>
      raise (mk_exc AttributeError
               "'NoneType' object has no attribute '_options'" None)
  end.

(** [self.Model._maybe_reconstruct(self._loads(serializer, data))], the
    expression shared by lines 46-47 and 100-101. *)
Definition decode_and_reconstruct (serializer : CodecArg) (data : pyobj)
    : M pyobj :=
  data <- _loads serializer data ;;
  _maybe_reconstruct data.

(** The suite of the [try] statement of [loads_key] (lines 42-55);
    [serializer] is already [serializer or self.key_serializer]. *)
Definition loads_key_try (typ : option ModelArg) (key : pyobj)
    (serializer : CodecArg) : M pyobj :=
  if isinstance key TyModelT then
    _loads_model typ serializer key
  else
    k <- decode_and_reconstruct serializer key ;;
    match typ with
    | None => ret k
    | Some ArgStr => want_str k
    | Some ArgBytes => want_bytes k
    | Some (ArgModel cls) =>
        if negb (isinstance k TyModelT) then construct cls k else ret k
    end.

(** [Registry.loads_key]. *)
Definition loads_key (typ : option ModelArg) (key : pyobj)
    (serializer : CodecArg) : M pyobj :=
  if is_None key then ret key
  else
    let serializer := codec_or serializer (key_serializer self) in
    try_except (loads_key_try typ key serializer)
      [ (ExceptMemoryError, fun e => raise e);
        (ExceptException, fun e => raise_from KeyDecodeError e) ].

(** The suite of the [try] statement of [loads_value] (lines 93-109). *)
Definition loads_value_try (typ : option ModelArg) (value : pyobj)
    (serializer : CodecArg) : M pyobj :=
  let serializer := codec_or serializer (value_serializer self) in
  if isinstance value TyModelT then
    _loads_model typ serializer value
  else
    let typ := match typ with None => ArgBytes | Some t => t end in
    v <- decode_and_reconstruct serializer value ;;
    match typ with
    | ArgStr => want_str v
    | ArgBytes => want_bytes v
    | ArgModel cls =>
        if negb (isinstance v TyModelT) then construct cls v else ret v
    end.

(** [Registry.loads_value]. *)
Definition loads_value (typ : option ModelArg) (value : pyobj)
    (serializer : CodecArg) : M pyobj :=
  if is_None value then ret VNone
  else
    try_except (loads_value_try typ value serializer)
      [ (ExceptMemoryError, fun e => raise e);
        (ExceptException, fun e => raise_from ValueDecodeError e) ].

(** [Registry.dumps_key].  The [serializer] argument is overwritten on the
    first line of the body. *)
Definition dumps_key (key : pyobj) (serializer : CodecArg)
    (skip : IsInstanceArg) : M pyobj :=
  let serializer := key_serializer self in
  let '(is_model, serializer) :=
    match key with
    | VModel cls _ => (true, codec_or (options_serializer cls) serializer)
    | _ => (false, serializer)
    end in
  if truthy_codec serializer && negb (isinstance_any key skip) then
    if is_model then Model_dumps key serializer
    else dumps serializer key
  else
    if negb (is_None key) then want_bytes key else ret VNone.

(** [Registry.dumps_value]. *)
Definition dumps_value (value : pyobj) (serializer : CodecArg)
    (skip : IsInstanceArg) : M pyobj :=
  let serializer := codec_or serializer (value_serializer self) in
  let '(is_model, serializer) :=
    match value with
    | VModel cls _ => (true, codec_or (options_serializer cls) serializer)
    | _ => (false, serializer)
    end in
  if truthy_codec serializer && negb (isinstance_any value skip) then
    if is_model then Model_dumps value serializer
    else dumps serializer value
  else
    ret value.

End RegistryOps.

Arguments loads_key {caps} self typ key serializer.
Arguments loads_value {caps} self typ value serializer.
Arguments loads_key_try {caps} typ key serializer.
Arguments loads_value_try {caps} self typ value serializer.
Arguments dumps_key {caps} self key serializer skip.
Arguments dumps_value {caps} self value serializer skip.

(** [isinstance(v, cls)] for a model class [cls]. *)
Definition instance_of (v : pyobj) (cls : ModelType) : Prop :=
  exists fields, v = VModel cls fields.

(** ** A concrete set of collaborators

    A small codec, model registry and pair of coercion helpers on which the
    operations can be run. *)

Module Sample.

Definition bytes_of (s : string) : list byte := list_byte_of_string s.
Definition text_of (b : list byte) : string := string_of_list_byte b.

(** Three model classes: [Account] and [Payment] declare no codec, [Order]
    declares 'raw'. *)
Definition Account : ModelType := mkModelType "Account" None.
Definition Order : ModelType := mkModelType "Order" (Some (CodecName "raw")).
Definition Payment : ModelType := mkModelType "Payment" None.

(** The primitive an [Account] serializes to: it carries the type tag. *)
Definition account_data : pyobj :=
  VDict [("__faust", VDict [("ns", VStr "Account")]); ("id", VInt 7)].
Definition account_bytes : list byte :=
  bytes_of "{__faust:{ns:Account},id:7}".

Definition ValueError (msg : string) : exc :=
  mk_exc (OtherException "ValueError") msg None.
Definition TypeError (msg : string) : exc :=
  mk_exc (OtherException "TypeError") msg None.
Definition KeyError (msg : string) : exc :=
  mk_exc (OtherException "KeyError") msg None.

(** The codec named 'json' understands three documents; 'raw', a false
    codec argument and every other codec leave the data as it is. *)
Definition is_json (c : CodecArg) : bool :=
  match c with
  | Some (CodecName name) => String.eqb name "json"
  | _ => false
  end.

Definition decode (c : CodecArg) (data : pyobj) : result pyobj :=
  if is_json c then
    match data with
    | VBytes b =>
        if String.eqb (text_of b) "null" then Ok VNone
        else if String.eqb (text_of b) "7" then Ok (VInt 7)
        else if String.eqb (text_of b) (text_of account_bytes)
             then Ok account_data
        else Raise (ValueError "Expecting value")
    | _ => Raise (TypeError "the JSON object must be str or bytes")
    end
  else Ok data.

(** A JSON string literal: the text between two quotation marks. *)
Definition quoted (s : string) : list byte := x22 :: bytes_of s ++ [x22].

(** 'json' writes [None], 7, a string and the empty mapping and rejects
    bytes and model instances; 'raw' turns text into bytes and leaves the
    rest as it is. *)
Definition encode (c : CodecArg) (obj : pyobj) : result pyobj :=
  if is_json c then
    match obj with
    | VNone => Ok (VBytes (bytes_of "null"))
    | VInt 7 => Ok (VBytes (bytes_of "7"))
    | VStr s => Ok (VBytes (quoted s))
    | VDict [] => Ok (VBytes (bytes_of "{}"))
    | _ => Raise (TypeError "object is not JSON serializable")
    end
  else if truthy_codec c then
    match obj with
    | VStr s => Ok (VBytes (bytes_of s))
    | _ => Ok obj
    end
  else Ok obj.

(** [want_str] and [want_bytes] (faust.utils.compat, absent from the
    sources at hand): bytes are decoded to text, respectively text encoded
    to bytes, and every other value is returned as it is. *)
Definition as_text (v : pyobj) : result pyobj :=
  match v with
  | VBytes b => Ok (VStr (text_of b))
  | _ => Ok v
  end.

Definition as_bytes (v : pyobj) : result pyobj :=
  match v with
  | VStr s => Ok (VBytes (bytes_of s))
  | _ => Ok v
  end.

Definition lookup (k : string) (items : list (string * pyobj))
    : option pyobj :=
  option_map snd (find (fun kv => String.eqb (fst kv) k) items).

(** The tag registry knows [Account] and [Order]. *)
Definition tag (data : pyobj) : result (option ModelType) :=
  match data with
  | VDict items =>
      match lookup "__faust" items with
      | Some (VDict blessed) =>
          match lookup "ns" blessed with
          | Some (VStr ns) =>
              if String.eqb ns "Account" then Ok (Some Account)
              else if String.eqb ns "Order" then Ok (Some Order)
              else Raise (KeyError ns)
          | _ => Raise (KeyError "ns")
          end
      | Some _ => Raise (TypeError "string indices must be integers")
      | None => Ok None
      end
  | _ => Ok None
  end.

(** A model keeps the data it was built from. *)
Definition init (cls : ModelType) (data : pyobj) : result pyobj := Ok data.

Definition model_to_bytes (cls : ModelType) (fields : pyobj) (c : CodecArg)
    : result pyobj :=
  Ok (VBytes account_bytes).

#[export] Instance caps : Capabilities := {|
  codec_loads := decode;
  codec_dumps := encode;
  compat_want_str := as_text;
  compat_want_bytes := as_bytes;
  recognized_tag := tag;
  model_init := init;
  model_dumps := model_to_bytes
|}.

(** The same collaborators, with a codec interrupted while decoding. *)
Definition interrupted : Capabilities := {|
  codec_loads := fun _ _ => Raise (mk_exc KeyboardInterrupt EmptyString None);
  codec_dumps := encode;
  compat_want_str := as_text;
  compat_want_bytes := as_bytes;
  recognized_tag := tag;
  model_init := init;
  model_dumps := model_to_bytes
|}.

Definition json : CodecArg := Some (CodecName "json").
Definition raw : CodecArg := Some (CodecName "raw").

Definition none_registry : Registry := mkRegistry None None.
Definition json_registry : Registry := mkRegistry json json.

End Sample.

(** ** The constructor and further sample data *)

(** [Registry.__init__(key_serializer=None, value_serializer='json')]: an
    argument that is not passed ([None] here) takes its default; an argument
    that is passed, be it Python's [None], is stored as it is. *)
Definition Registry_init (key_serializer value_serializer : option CodecArg)
    : Registry :=
  mkRegistry
    (match key_serializer with Some c => c | None => None end)
    (match value_serializer with
     | Some c => c
     | None => Some (CodecName "json")
     end).

(** The constructor calls of a trace. *)
Definition constructs (t : trace) : trace :=
  filter (fun ev => match ev with EConstruct _ _ => true | _ => false end) t.

(** The sample collaborators with a codec that also understands a document
    carrying no type tag. *)
Module Plain.

Definition plain_data : pyobj := VDict [("id", VInt 7)].
Definition plain_bytes : list byte := Sample.bytes_of "{id:7}".

Definition decode (c : CodecArg) (data : pyobj) : result pyobj :=
  match data with
  | VBytes b =>
      if Sample.is_json c
         && String.eqb (Sample.text_of b) (Sample.text_of plain_bytes)
      then Ok plain_data
      else Sample.decode c data
  | _ => Sample.decode c data
  end.

Definition caps : Capabilities := {|
  codec_loads := decode;
  codec_dumps := Sample.encode;
  compat_want_str := Sample.as_text;
  compat_want_bytes := Sample.as_bytes;
  recognized_tag := Sample.tag;
  model_init := Sample.init;
  model_dumps := Sample.model_to_bytes
|}.

End Plain.

(** ** Proof support *)

Ltac unfold_ops :=
  unfold loads_key, loads_value, loads_key_try, loads_value_try,
    decode_and_reconstruct, _loads_model, _loads, _maybe_reconstruct,
    _maybe_namespace, construct, want_str, want_bytes, dumps, Model_dumps,
    dumps_key, dumps_value, try_except, raise_from, bind, call, ret, raise
    in *.

Lemma bind_ok {A B} (m : M A) (f : A -> M B) t a :
  m = (t, Ok a) -> bind m f = (t ++ fst (f a), snd (f a)).
Proof. intros ->. simpl. destruct (f a); reflexivity. Qed.

(** How the two [except] clauses of the decode operations treat a failure
    of the [try] suite. *)
Lemma try_except_decode (cls : ExcClass) (body : M pyobj) t e :
  body = (t, Raise e) ->
  try_except body
    [ (ExceptMemoryError, fun e => raise e);
      (ExceptException, fun e => raise_from cls e) ]
  = (t, Raise (if is_MemoryError e then e
               else if is_Exception e then mk_exc cls (exc_str e) (Some e)
               else e)).
Proof.
  intros ->. unfold try_except, raise_from, raise. simpl.
  destruct (is_MemoryError e); simpl.
  - now rewrite app_nil_r.
  - destruct (is_Exception e); simpl; [now rewrite app_nil_r | reflexivity].
Qed.

(** The [except] clauses of the decode operations call no collaborator. *)
Lemma try_except_decode_trace (cls : ExcClass) (body : M pyobj) :
  fst (try_except body
         [ (ExceptMemoryError, fun e => raise e);
           (ExceptException, fun e => raise_from cls e) ])
  = fst body.
Proof.
  destruct body as [t [a | e]]; [reflexivity |].
  rewrite (try_except_decode cls _ t e eq_refl). reflexivity.
Qed.

(** Case analysis on every [match] and [if] scrutinee of the goal. *)
Ltac crunch :=
  repeat (simpl in *;
          match goal with
          | H : ?x = _ |- context [match ?x with _ => _ end] => rewrite H
          | |- context [match ?x with _ => _ end] =>
              lazymatch x with
              | context [match _ with _ => _ end] => fail
              | _ => destruct x eqn:?
              end
          end);
  simpl in *; try rewrite !app_nil_r; try reflexivity; try congruence.

(** ** Properties *)

Section Properties.

Context {caps : Capabilities}.
Variable self : Registry.

(** C2: for every target type and every override, [loads_key] of a [None]
    key and [loads_value] of a [None] value return [None], and no call to a
    codec, to tag reconstruction or to a coercion is made. *)
Theorem loads_None_short_circuit (typ : option ModelArg) (serializer : CodecArg) :
  loads_key self typ VNone serializer = ([], Ok VNone) /\
  loads_value self typ VNone serializer = ([], Ok VNone).
Proof. split; reflexivity. Qed.

(** C1 (amended): when the [try] suite of [loads_key] fails with [e], then
    [loads_key] raises [KeyDecodeError(str(e))] with [e] as its cause if [e]
    is an instance of [Exception] other than [MemoryError], and raises [e]
    itself if [e] is a [MemoryError] or is not an instance of [Exception]
    (KeyboardInterrupt, SystemExit, GeneratorExit); [loads_value] does the
    same with [ValueDecodeError].  Neither operation raises unless its [try]
    suite did. *)
Theorem decode_failure_wrapping (typ : option ModelArg) (data : pyobj)
    (serializer : CodecArg) :
  is_None data = false ->
  (forall t e,
     loads_key_try typ data (codec_or serializer (key_serializer self))
       = (t, Raise e) ->
     loads_key self typ data serializer
       = (t, Raise (if is_Exception e && negb (is_MemoryError e)
                    then mk_exc KeyDecodeError (exc_str e) (Some e)
                    else e))) /\
  (forall t e,
     loads_value_try self typ data serializer = (t, Raise e) ->
     loads_value self typ data serializer
       = (t, Raise (if is_Exception e && negb (is_MemoryError e)
                    then mk_exc ValueDecodeError (exc_str e) (Some e)
                    else e))) /\
  (forall t e',
     loads_key self typ data serializer = (t, Raise e') ->
     exists e,
       loads_key_try typ data (codec_or serializer (key_serializer self))
         = (t, Raise e)) /\
  (forall t e',
     loads_value self typ data serializer = (t, Raise e') ->
     exists e, loads_value_try self typ data serializer = (t, Raise e)).
Proof.
  intros Hnone. unfold loads_key, loads_value. rewrite Hnone.
  repeat split.
  - intros t e Hbody. rewrite (try_except_decode _ _ _ _ Hbody).
    destruct (is_MemoryError e), (is_Exception e); reflexivity.
  - intros t e Hbody. rewrite (try_except_decode _ _ _ _ Hbody).
    destruct (is_MemoryError e), (is_Exception e); reflexivity.
  - intros t e'.
    destruct (loads_key_try typ data _) as [t0 [a | e]] eqn:Hbody.
    + simpl. discriminate.
    + rewrite (try_except_decode _ _ _ _ eq_refl). intros [= -> _]. now exists e.
  - intros t e'.
    destruct (loads_value_try self typ data serializer) as [t0 [a | e]] eqn:Hbody.
    + simpl. discriminate.
    + rewrite (try_except_decode _ _ _ _ eq_refl). intros [= -> _]. now exists e.
Qed.

(** C3: for a key that is not a model instance, [dumps_key] resolves its
    codec from [self.key_serializer] alone, whatever the [serializer]
    argument is; [dumps_value] called with a [serializer] argument hands the
    value to that codec, whatever [self.value_serializer] is. *)
Theorem dumps_override_asymmetry (obj : pyobj) (serializer : CodecArg)
    (skip : IsInstanceArg) :
  isinstance obj TyModelT = false ->
  truthy_codec serializer = true ->
  dumps_key self obj serializer skip
    = (if truthy_codec (key_serializer self) && negb (isinstance_any obj skip)
       then dumps (key_serializer self) obj
       else if negb (is_None obj) then want_bytes obj else ret VNone) /\
  (forall other, dumps_key self obj other skip = dumps_key self obj serializer skip) /\
  dumps_value self obj serializer skip
    = (if isinstance_any obj skip then ret obj else dumps serializer obj).
Proof.
  intros Hmodel Hgiven. unfold dumps_key, dumps_value, codec_or.
  rewrite Hgiven.
  destruct obj; try discriminate; simpl; rewrite ?Hgiven; simpl;
    repeat split; try reflexivity;
    destruct (isinstance_any _ skip); reflexivity.
Qed.


(** C5 (amended): when the codec that the decode path selects (the per-call
    serializer or the channel default in the raw path, the codec declared by
    [B] or else the default in [_loads_model]) decodes the input to a
    primitive that carries the type tag of model class [A], and [A] accepts
    it, then a caller requesting model class [B] gets an instance of [A] and
    not of [B], in the raw decode path of [loads_key] and [loads_value] and
    in [_loads_model]. *)
Theorem tag_overrides_target (A B : ModelType) (input : pyobj)
    (serializer default : CodecArg) (prim fields : pyobj) :
  A <> B ->
  is_None input = false ->
  isinstance input TyModelT = false ->
  recognized_tag prim = Ok (Some A) ->
  model_init A prim = Ok fields ->
  (codec_loads (codec_or serializer (key_serializer self)) input = Ok prim ->
   snd (loads_key self (Some (ArgModel B)) input serializer)
     = Ok (VModel A fields)) /\
  (codec_loads (codec_or serializer (value_serializer self)) input = Ok prim ->
   snd (loads_value self (Some (ArgModel B)) input serializer)
     = Ok (VModel A fields)) /\
  (codec_loads (codec_or (options_serializer B) default) input = Ok prim ->
   snd (_loads_model (Some (ArgModel B)) default input)
     = Ok (VModel A fields)) /\
  instance_of (VModel A fields) A /\
  ~ instance_of (VModel A fields) B.
Proof.
  intros Hdistinct Hnone Hmodel Htag Hinit. repeat split.
  - intros Hloads. unfold loads_key, loads_key_try. rewrite Hnone, Hmodel.
    unfold_ops. rewrite Hloads, Htag, Hinit. reflexivity.
  - intros Hloads. unfold loads_value, loads_value_try. rewrite Hnone, Hmodel.
    unfold_ops. rewrite Hloads, Htag, Hinit. reflexivity.
  - intros Hloads. unfold_ops. rewrite Hloads, Htag, Hinit. reflexivity.
  - now exists fields.
  - intros [fields' Heq]. injection Heq as HAB _. contradiction.
Qed.

(** C6: with no target type, [loads_value] behaves as with target type
    [bytes] and returns [want_bytes] of the decoded (possibly
    tag-reconstructed) value, whereas [loads_key] returns that value
    unchanged and calls no coercion. *)
Theorem default_target_type (data : pyobj) (serializer : CodecArg) :
  is_None data = false ->
  isinstance data TyModelT = false ->
  loads_value self None data serializer
    = loads_value self (Some ArgBytes) data serializer /\
  (forall t v b,
     decode_and_reconstruct (codec_or serializer (value_serializer self)) data
       = (t, Ok v) ->
     compat_want_bytes v = Ok b ->
     loads_value self None data serializer = (t ++ [EWantBytes v], Ok b)) /\
  (forall t v,
     decode_and_reconstruct (codec_or serializer (key_serializer self)) data
       = (t, Ok v) ->
     loads_key self None data serializer = (t, Ok v)).
Proof.
  intros Hnone Hmodel. repeat split.
  - unfold loads_value, loads_value_try. rewrite Hmodel. reflexivity.
  - intros t v b Hdec Hbytes.
    unfold loads_value, loads_value_try. rewrite Hnone, Hmodel.
    rewrite (bind_ok _ _ _ _ Hdec). unfold want_bytes, call. simpl.
    now rewrite Hbytes.
  - intros t v Hdec.
    unfold loads_key, loads_key_try. rewrite Hnone, Hmodel.
    rewrite (bind_ok _ _ _ _ Hdec). simpl. now rewrite app_nil_r.
Qed.

(** C7: whatever the channel defaults and the [serializer] argument are,
    [dumps_key] and [dumps_value] return a [bytes] value unchanged and call
    no codec ([want_bytes] being the identity on [bytes]). *)
Theorem dumps_bytes_passthrough (b : list byte) (serializer : CodecArg) :
  compat_want_bytes (VBytes b) = Ok (VBytes b) ->
  dumps_key self (VBytes b) serializer default_skip
    = ([EWantBytes (VBytes b)], Ok (VBytes b)) /\
  dumps_value self (VBytes b) serializer default_skip = ([], Ok (VBytes b)) /\
  codecs_used (fst (dumps_key self (VBytes b) serializer default_skip)) = [] /\
  codecs_used (fst (dumps_value self (VBytes b) serializer default_skip)) = [].
Proof.
  intros Hid.
  assert (Hk : dumps_key self (VBytes b) serializer default_skip
               = ([EWantBytes (VBytes b)], Ok (VBytes b))).
  { unfold dumps_key, want_bytes, call. simpl. rewrite andb_false_r.
    now rewrite Hid. }
  assert (Hv : dumps_value self (VBytes b) serializer default_skip
               = ([], Ok (VBytes b))).
  { unfold dumps_value. simpl. now rewrite andb_false_r. }
  rewrite Hk, Hv. repeat split.
Qed.

(** C8 (amended): [dumps_key] of a [None] key returns [None] when the
    registry has no key codec, and [dumps_value] of a [None] value returns
    [None] when neither the [serializer] argument nor the registry gives a
    value codec; when a codec is resolved, [None] is handed to
    [codecs.dumps] with that codec and its outcome is the outcome of the
    operation. *)
Theorem dumps_None (serializer : CodecArg) :
  (truthy_codec (key_serializer self) = false ->
   forall skip, dumps_key self VNone serializer skip = ([], Ok VNone)) /\
  (truthy_codec (codec_or serializer (value_serializer self)) = false ->
   forall skip, dumps_value self VNone serializer skip = ([], Ok VNone)) /\
  (truthy_codec (key_serializer self) = true ->
   dumps_key self VNone serializer default_skip
     = dumps (key_serializer self) VNone) /\
  (truthy_codec (codec_or serializer (value_serializer self)) = true ->
   dumps_value self VNone serializer default_skip
     = dumps (codec_or serializer (value_serializer self)) VNone).
Proof.
  unfold dumps_key, dumps_value. repeat split; intros H; intros;
    simpl; rewrite H; reflexivity.
Qed.



End Properties.

(** ** Error behaviour, call discipline and round trips *)

(** Case analysis on every [match] scrutinee of a hypothesis. *)
Ltac crunch_in H :=
  repeat (simpl in H;
          match type of H with
          | context [match ?x with _ => _ end] =>
              lazymatch x with
              | context [match _ with _ => _ end] => fail
              | _ => destruct x eqn:?
              end
          end);
  simpl in H.

Section Behaviour.

Context {caps : Capabilities}.
Variable self : Registry.

(** X1: when the codec fails on raw input with an [Exception] other than
    [MemoryError], the decode operation stops there: the codec call is the
    only call made, and the failure comes out wrapped in the decode error of
    the channel. *)
Theorem codec_failure_stops_decode (typ : option ModelArg) (data : pyobj)
    (serializer : CodecArg) (e : exc) :
  is_None data = false ->
  isinstance data TyModelT = false ->
  is_Exception e = true ->
  is_MemoryError e = false ->
  (codec_loads (codec_or serializer (key_serializer self)) data = Raise e ->
   loads_key self typ data serializer
     = ([ELoads (codec_or serializer (key_serializer self)) data],
        Raise (mk_exc KeyDecodeError (exc_str e) (Some e)))) /\
  (codec_loads (codec_or serializer (value_serializer self)) data = Raise e ->
   loads_value self typ data serializer
     = ([ELoads (codec_or serializer (value_serializer self)) data],
        Raise (mk_exc ValueDecodeError (exc_str e) (Some e)))).
Proof.
  intros Hnone Hmodel Hexc Hmem. split; intros Hloads.
  - unfold loads_key. rewrite Hnone.
    rewrite (try_except_decode _ _
               [ELoads (codec_or serializer (key_serializer self)) data] e).
    + now rewrite Hexc, Hmem.
    + unfold loads_key_try. rewrite Hmodel. unfold_ops. now rewrite Hloads.
  - unfold loads_value. rewrite Hnone.
    rewrite (try_except_decode _ _
               [ELoads (codec_or serializer (value_serializer self)) data] e).
    + now rewrite Hexc, Hmem.
    + unfold loads_value_try. rewrite Hmodel. unfold_ops. now rewrite Hloads.
Qed.

(** X2: a model instance given as input together with a target type that is
    not a model class ([None], [str] or [bytes]) makes both decode
    operations raise their decode error, caused by the [AttributeError] of
    reading [typ._options], before any collaborator is called. *)
Theorem model_input_needs_model_target (typ : option ModelArg)
    (cls : ModelType) (fields : pyobj) (serializer : CodecArg) :
  (forall target, typ <> Some (ArgModel target)) ->
  exists msg,
    loads_key self typ (VModel cls fields) serializer
      = ([], Raise (mk_exc KeyDecodeError msg
                      (Some (mk_exc AttributeError msg None)))) /\
    loads_value self typ (VModel cls fields) serializer
      = ([], Raise (mk_exc ValueDecodeError msg
                      (Some (mk_exc AttributeError msg None)))).
Proof.
  intros Hnot. destruct typ as [[| | target] |].
  - eexists. split; reflexivity.
  - eexists. split; reflexivity.
  - now destruct (Hnot target).
  - eexists. split; reflexivity.
Qed.

(** X3: an exception that leaves [loads_key] is a [KeyDecodeError] that has
    a cause and repeats the cause's message, or a [MemoryError], or not an
    instance of [Exception]; the same holds of [loads_value] and
    [ValueDecodeError]. *)
Theorem decode_raises_only (typ : option ModelArg) (data : pyobj)
    (serializer : CodecArg) :
  (forall t e,
     loads_key self typ data serializer = (t, Raise e) ->
     (exc_class e = KeyDecodeError /\
      exists e0, exc_cause e = Some e0 /\ exc_str e = exc_str e0) \/
     is_MemoryError e = true \/ is_Exception e = false) /\
  (forall t e,
     loads_value self typ data serializer = (t, Raise e) ->
     (exc_class e = ValueDecodeError /\
      exists e0, exc_cause e = Some e0 /\ exc_str e = exc_str e0) \/
     is_MemoryError e = true \/ is_Exception e = false).
Proof.
  split; intros t e.
  - unfold loads_key. destruct (is_None data); [discriminate |].
    destruct (loads_key_try typ data _) as [t0 [a | e0]]; [discriminate |].
    rewrite (try_except_decode _ _ t0 e0 eq_refl).
    destruct (is_MemoryError e0) eqn:Hmem; [intros [= _ <-]; auto |].
    destruct (is_Exception e0) eqn:Hexc; intros [= _ <-]; [| auto].
    left. split; [reflexivity | now exists e0].
  - unfold loads_value. destruct (is_None data); [discriminate |].
    destruct (loads_value_try self typ data _) as [t0 [a | e0]]; [discriminate |].
    rewrite (try_except_decode _ _ t0 e0 eq_refl).
    destruct (is_MemoryError e0) eqn:Hmem; [intros [= _ <-]; auto |].
    destruct (is_Exception e0) eqn:Hexc; intros [= _ <-]; [| auto].
    left. split; [reflexivity | now exists e0].
Qed.

(** X4: the encode operations wrap nothing: an exception that leaves
    [dumps_value] is the very exception raised by [codecs.dumps] or by the
    model's own [dumps], that call being the only one made; for [dumps_key]
    it may also be the one raised by [want_bytes]. *)
Theorem encode_raises_unwrapped (obj : pyobj) (serializer : CodecArg)
    (skip : IsInstanceArg) :
  (forall t e,
     dumps_value self obj serializer skip = (t, Raise e) ->
     (exists c, t = [EDumps c obj] /\ codec_dumps c obj = Raise e) \/
     (exists cls fields c,
        obj = VModel cls fields /\ t = [EModelDumps obj c] /\
        model_dumps cls fields c = Raise e)) /\
  (forall t e,
     dumps_key self obj serializer skip = (t, Raise e) ->
     (exists c, t = [EDumps c obj] /\ codec_dumps c obj = Raise e) \/
     (exists cls fields c,
        obj = VModel cls fields /\ t = [EModelDumps obj c] /\
        model_dumps cls fields c = Raise e) \/
     (t = [EWantBytes obj] /\ compat_want_bytes obj = Raise e)).
Proof.
  split; intros t e.
  - unfold dumps_value.
    destruct obj; cbv zeta iota beta;
      match goal with
      | |- context [if ?b then _ else _] => destruct b
      end; unfold dumps, Model_dumps, call, ret;
      intros [= <- H]; eauto 8.
  - unfold dumps_key.
    destruct obj; cbv zeta iota beta;
      match goal with
      | |- context [if ?b then _ else _] => destruct b
      end; unfold dumps, Model_dumps, want_bytes, call, ret; simpl;
      intros [= <- H]; eauto 8.
Qed.

(** X5: no operation calls a codec twice, no decode operation constructs
    more than one model instance, and an encode operation makes at most one
    call to a collaborator altogether. *)
Theorem call_bounds (typ : option ModelArg) (obj : pyobj)
    (serializer : CodecArg) (skip : IsInstanceArg) :
  length (codecs_used (fst (loads_key self typ obj serializer))) <= 1 /\
  length (constructs (fst (loads_key self typ obj serializer))) <= 1 /\
  length (codecs_used (fst (loads_value self typ obj serializer))) <= 1 /\
  length (constructs (fst (loads_value self typ obj serializer))) <= 1 /\
  length (fst (dumps_key self obj serializer skip)) <= 1 /\
  length (fst (dumps_value self obj serializer skip)) <= 1.
Proof.
  repeat split.
  - unfold loads_key. destruct (is_None obj); [simpl; lia |].
    rewrite try_except_decode_trace. unfold_ops. crunch; lia.
  - unfold loads_key. destruct (is_None obj); [simpl; lia |].
    rewrite try_except_decode_trace. unfold_ops. crunch; lia.
  - unfold loads_value. destruct (is_None obj); [simpl; lia |].
    rewrite try_except_decode_trace. unfold_ops. crunch; lia.
  - unfold loads_value. destruct (is_None obj); [simpl; lia |].
    rewrite try_except_decode_trace. unfold_ops. crunch; lia.
  - unfold_ops. crunch; lia.
  - unfold_ops. crunch; lia.
Qed.

(** X6: with a model class as target type, a decode operation that returns
    on a non-[None] input returns a model instance: one built by a
    constructor call of this very operation, or else the untagged model
    instance that the codec itself returned. *)
Theorem model_target_returns_model (cls : ModelType) (data : pyobj)
    (serializer : CodecArg) :
  is_None data = false ->
  (forall t v,
     loads_key self (Some (ArgModel cls)) data serializer = (t, Ok v) ->
     exists c fields,
       v = VModel c fields /\
       ((exists d, In (EConstruct c d) t /\ model_init c d = Ok fields) \/
        (exists codec, codec_loads codec data = Ok v))) /\
  (forall t v,
     loads_value self (Some (ArgModel cls)) data serializer = (t, Ok v) ->
     exists c fields,
       v = VModel c fields /\
       ((exists d, In (EConstruct c d) t /\ model_init c d = Ok fields) \/
        (exists codec, codec_loads codec data = Ok v))).
Proof.
  intros Hnone. split; intros t v.
  - unfold loads_key. rewrite Hnone.
    destruct (loads_key_try _ data _) as [t0 [a | e0]] eqn:Hbody.
    + simpl. intros [= <- <-]. unfold_ops. crunch_in Hbody;
        inversion Hbody; subst; clear Hbody; try discriminate;
        solve
          [ do 2 eexists; (split; [reflexivity |]); left; eexists;
            (split; [simpl; eauto 10 | eassumption])
          | match goal with
            | H : negb (isinstance ?a TyModelT) = false |- _ =>
                destruct a; try discriminate H
            end;
            do 2 eexists; (split; [reflexivity |]); right; eauto ].
    + rewrite (try_except_decode _ _ t0 e0 eq_refl). discriminate.
  - unfold loads_value. rewrite Hnone.
    destruct (loads_value_try self _ data _) as [t0 [a | e0]] eqn:Hbody.
    + simpl. intros [= <- <-]. unfold_ops. crunch_in Hbody;
        inversion Hbody; subst; clear Hbody; try discriminate;
        solve
          [ do 2 eexists; (split; [reflexivity |]); left; eexists;
            (split; [simpl; eauto 10 | eassumption])
          | match goal with
            | H : negb (isinstance ?a TyModelT) = false |- _ =>
                destruct a; try discriminate H
            end;
            do 2 eexists; (split; [reflexivity |]); right; eauto ].
    + rewrite (try_except_decode _ _ t0 e0 eq_refl). discriminate.
Qed.

(** X7: a value whose class is in [skip] never reaches a codec, whatever
    codec is resolved and even if it is a model instance: [dumps_value]
    returns it as it is without calling anything, and [dumps_key] returns
    [want_bytes] of it, or [None] without any call when the value is a
    skipped [None]. *)
Theorem skip_bypasses_codec (obj : pyobj) (serializer : CodecArg)
    (skip : IsInstanceArg) :
  isinstance_any obj skip = true ->
  dumps_value self obj serializer skip = ([], Ok obj) /\
  dumps_key self obj serializer skip
    = (if is_None obj then ([], Ok VNone)
       else ([EWantBytes obj], compat_want_bytes obj)).
Proof.
  intros Hskip.
  unfold dumps_value, dumps_key, want_bytes, call, ret.
  rewrite Hskip.
  destruct obj; cbv zeta iota beta; rewrite !andb_false_r; split; reflexivity.
Qed.

(** X8: a model instance whose class declares no codec is not serialized
    when no codec is resolved for the channel: [dumps_value] returns the
    instance itself and [dumps_key] hands the instance to [want_bytes]. *)
Theorem model_without_codec_not_serialized (cls : ModelType)
    (fields : pyobj) (serializer : CodecArg) (skip : IsInstanceArg) :
  truthy_codec (options_serializer cls) = false ->
  (truthy_codec (codec_or serializer (value_serializer self)) = false ->
   dumps_value self (VModel cls fields) serializer skip
     = ([], Ok (VModel cls fields))) /\
  (truthy_codec (key_serializer self) = false ->
   dumps_key self (VModel cls fields) serializer skip
     = ([EWantBytes (VModel cls fields)],
        compat_want_bytes (VModel cls fields))).
Proof.
  intros Hdecl. split; intros Hnocodec.
  - unfold dumps_value. cbv zeta iota beta.
    unfold codec_or at 1. rewrite Hdecl, Hnocodec. reflexivity.
  - unfold dumps_key. cbv zeta iota beta.
    unfold codec_or. rewrite Hdecl, Hnocodec. reflexivity.
Qed.

(** X9: round trip of a model instance whose class declares no codec: when
    the model serializes itself to bytes that the channel codec decodes to a
    primitive carrying the class's tag, from which the class rebuilds the
    same fields, then decoding what was encoded gives the instance back,
    whatever model class is requested as target type. *)
Theorem model_roundtrip (cls target : ModelType) (fields prim : pyobj)
    (b : list byte) (c serializer ignored : CodecArg) :
  truthy_codec (options_serializer cls) = false ->
  truthy_codec c = true ->
  model_dumps cls fields c = Ok (VBytes b) ->
  codec_loads c (VBytes b) = Ok prim ->
  recognized_tag prim = Ok (Some cls) ->
  model_init cls prim = Ok fields ->
  (codec_or serializer (value_serializer self) = c ->
   snd (out <- dumps_value self (VModel cls fields) serializer default_skip ;;
        loads_value self (Some (ArgModel target)) out serializer)
     = Ok (VModel cls fields)) /\
  (key_serializer self = c ->
   snd (out <- dumps_key self (VModel cls fields) ignored default_skip ;;
        loads_key self (Some (ArgModel target)) out None)
     = Ok (VModel cls fields)).
Proof.
  intros Hdecl Hc Hdumps Hloads Htag Hinit. split; intros Hcodec.
  - assert (Henc : dumps_value self (VModel cls fields) serializer default_skip
                   = ([EModelDumps (VModel cls fields) c], Ok (VBytes b))).
    { unfold dumps_value. cbv zeta iota beta. rewrite Hcodec.
      unfold codec_or. rewrite Hdecl, Hc. simpl. unfold Model_dumps, call.
      now rewrite Hdumps. }
    rewrite (bind_ok _ _ _ _ Henc).
    unfold loads_value, loads_value_try. simpl. rewrite Hcodec.
    unfold_ops. rewrite Hloads, Htag, Hinit. reflexivity.
  - assert (Henc : dumps_key self (VModel cls fields) ignored default_skip
                   = ([EModelDumps (VModel cls fields) c], Ok (VBytes b))).
    { unfold dumps_key. cbv zeta iota beta. unfold codec_or.
      rewrite Hdecl, Hcodec, Hc. simpl. unfold Model_dumps, call.
      now rewrite Hdumps. }
    rewrite (bind_ok _ _ _ _ Henc).
    unfold loads_key, loads_key_try. simpl.
    unfold codec_or at 1. simpl. rewrite Hcodec.
    unfold_ops. rewrite Hloads, Htag, Hinit. reflexivity.
Qed.

(** X10: round trip of a value that is neither a model instance nor bytes,
    through a codec that decodes what it encoded and with no type tag in
    play: [loads_key] with no target type gives back the key that
    [dumps_key] encoded, whereas [loads_value] with no target type gives
    back [want_bytes] of the value that [dumps_value] encoded. *)
Theorem primitive_roundtrip (obj : pyobj) (b : list byte)
    (c serializer ignored : CodecArg) :
  isinstance obj TyModelT = false ->
  isinstance obj TyBytes = false ->
  truthy_codec c = true ->
  codec_dumps c obj = Ok (VBytes b) ->
  codec_loads c (VBytes b) = Ok obj ->
  recognized_tag obj = Ok None ->
  (key_serializer self = c ->
   snd (out <- dumps_key self obj ignored default_skip ;;
        loads_key self None out None) = Ok obj) /\
  (codec_or serializer (value_serializer self) = c ->
   forall r, compat_want_bytes obj = Ok r ->
   snd (out <- dumps_value self obj serializer default_skip ;;
        loads_value self None out serializer) = Ok r).
Proof.
  intros Hmodel Hbytes Hc Hdumps Hloads Htag.
  assert (Hskip : isinstance_any obj default_skip = false).
  { unfold isinstance_any, default_skip. simpl. now rewrite Hbytes. }
  split.
  - intros Hcodec.
    assert (Henc : dumps_key self obj ignored default_skip
                   = ([EDumps c obj], Ok (VBytes b))).
    { unfold dumps_key, dumps, call. rewrite Hcodec.
      destruct obj; try discriminate; cbv zeta iota beta;
        rewrite Hc, Hskip, Hdumps; reflexivity. }
    rewrite (bind_ok _ _ _ _ Henc).
    unfold loads_key, loads_key_try. simpl.
    unfold codec_or at 1. simpl. rewrite Hcodec.
    unfold_ops. rewrite Hloads, Htag. reflexivity.
  - intros Hcodec r Hwant.
    assert (Henc : dumps_value self obj serializer default_skip
                   = ([EDumps c obj], Ok (VBytes b))).
    { unfold dumps_value, dumps, call. rewrite Hcodec.
      destruct obj; try discriminate; cbv zeta iota beta;
        rewrite Hc, Hskip, Hdumps; reflexivity. }
    rewrite (bind_ok _ _ _ _ Henc).
    unfold loads_value, loads_value_try. simpl. rewrite Hcodec.
    unfold_ops. rewrite Hloads, Htag. simpl. rewrite Hwant. reflexivity.
Qed.

(** X11: a per-call serializer that is false in a condition ([None] or the
    empty codec name) is the same as none: [loads_key], [loads_value] and
    [dumps_value] behave as when called without one. *)
Theorem falsy_override_is_no_override (typ : option ModelArg) (obj : pyobj)
    (serializer : CodecArg) (skip : IsInstanceArg) :
  truthy_codec serializer = false ->
  loads_key self typ obj serializer = loads_key self typ obj None /\
  loads_value self typ obj serializer = loads_value self typ obj None /\
  dumps_value self obj serializer skip = dumps_value self obj None skip.
Proof.
  intros Hfalsy.
  unfold loads_key, loads_value, loads_value_try, dumps_value, codec_or.
  rewrite Hfalsy. simpl. repeat split; reflexivity.
Qed.

(** X12: data that carries no type tag, decoded with a model class as
    target type, comes back as an instance of that class built from the
    decoded primitive, in the raw path of both decode operations and in
    [_loads_model]. *)
Theorem untagged_builds_target (cls : ModelType) (data prim fields : pyobj)
    (serializer default : CodecArg) :
  is_None data = false ->
  isinstance data TyModelT = false ->
  isinstance prim TyModelT = false ->
  recognized_tag prim = Ok None ->
  model_init cls prim = Ok fields ->
  (codec_loads (codec_or serializer (key_serializer self)) data = Ok prim ->
   loads_key self (Some (ArgModel cls)) data serializer
     = ([ELoads (codec_or serializer (key_serializer self)) data;
         EMaybeReconstruct prim; EConstruct cls prim],
        Ok (VModel cls fields))) /\
  (codec_loads (codec_or serializer (value_serializer self)) data = Ok prim ->
   loads_value self (Some (ArgModel cls)) data serializer
     = ([ELoads (codec_or serializer (value_serializer self)) data;
         EMaybeReconstruct prim; EConstruct cls prim],
        Ok (VModel cls fields))) /\
  (codec_loads (codec_or (options_serializer cls) default) data = Ok prim ->
   _loads_model (Some (ArgModel cls)) default data
     = ([ELoads (codec_or (options_serializer cls) default) data;
         EMaybeNamespace prim; EConstruct cls prim],
        Ok (VModel cls fields))).
Proof.
  intros Hnone Hmodel Hprim Htag Hinit. repeat split; intros Hloads.
  - unfold loads_key, loads_key_try. rewrite Hnone, Hmodel.
    unfold_ops. rewrite Hloads, Htag. simpl. rewrite Hprim. simpl.
    rewrite Hinit. reflexivity.
  - unfold loads_value, loads_value_try. rewrite Hnone, Hmodel.
    unfold_ops. rewrite Hloads, Htag. simpl. rewrite Hprim. simpl.
    rewrite Hinit. reflexivity.
  - unfold_ops. rewrite Hloads, Htag, Hinit. reflexivity.
Qed.

(** X13: bytes pass through the key channel unchanged: when the codec of the
    channel, the tag lookup and [want_bytes] leave a bytes value as it is,
    decoding with target type [bytes] what [dumps_key] returned for that
    value gives the value back, and [dumps_key] called no codec. *)
Theorem bytes_roundtrip (b : list byte) (ignored : CodecArg) :
  codec_loads (key_serializer self) (VBytes b) = Ok (VBytes b) ->
  recognized_tag (VBytes b) = Ok None ->
  compat_want_bytes (VBytes b) = Ok (VBytes b) ->
  (out <- dumps_key self (VBytes b) ignored default_skip ;;
   loads_key self (Some ArgBytes) out None)
    = ([EWantBytes (VBytes b); ELoads (key_serializer self) (VBytes b);
        EMaybeReconstruct (VBytes b); EWantBytes (VBytes b)],
       Ok (VBytes b)).
Proof.
  intros Hloads Htag Hwant.
  assert (Henc : dumps_key self (VBytes b) ignored default_skip
                 = ([EWantBytes (VBytes b)], Ok (VBytes b))).
  { unfold dumps_key, want_bytes, call. simpl. rewrite andb_false_r.
    now rewrite Hwant. }
  rewrite (bind_ok _ _ _ _ Henc).
  unfold loads_key, loads_key_try.
  change (codec_or None (key_serializer self)) with (key_serializer self).
  unfold_ops. simpl. rewrite Hloads, Htag. simpl. rewrite Hwant. reflexivity.
Qed.

End Behaviour.

(** X14: a registry built with [Registry()] hands every key that is
    neither [None] nor a model instance to [want_bytes] without calling a
    codec and decodes keys with codec [None] when no serializer is given per
    call, while it decodes values with the 'json' codec and encodes with it
    every value that is not bytes; built with [value_serializer=None] it
    returns such a value as it is. *)
Theorem default_registry_channels {caps : Capabilities} (obj : pyobj)
    (typ : option ModelArg) (ignored : CodecArg)
    (key_codec : option CodecArg) :
  isinstance obj TyModelT = false ->
  is_None obj = false ->
  dumps_key (Registry_init None None) obj ignored default_skip
    = ([EWantBytes obj], compat_want_bytes obj) /\
  codecs_used (fst (loads_key (Registry_init None None) typ obj None))
    = [None] /\
  codecs_used (fst (loads_value (Registry_init key_codec None) typ obj None))
    = [Some (CodecName "json")] /\
  (isinstance obj TyBytes = false ->
   dumps_value (Registry_init key_codec None) obj None default_skip
     = ([EDumps (Some (CodecName "json")) obj],
        codec_dumps (Some (CodecName "json")) obj) /\
   dumps_value (Registry_init key_codec (Some None)) obj None default_skip
     = ([], Ok obj)).
Proof.
  intros Hmodel Hnone. repeat split.
  - unfold dumps_key, want_bytes, call. simpl.
    destruct obj; try discriminate; reflexivity.
  - unfold loads_key. rewrite Hnone, try_except_decode_trace.
    unfold loads_key_try. rewrite Hmodel. unfold_ops. crunch.
  - unfold loads_value. rewrite Hnone, try_except_decode_trace.
    unfold loads_value_try. rewrite Hmodel. unfold_ops. crunch.
  - unfold dumps_value, dumps, call. simpl.
    destruct obj; try discriminate; reflexivity.
  - unfold dumps_value. simpl. destruct obj; try discriminate; reflexivity.
Qed.

(** ** The operations run on the sample collaborators *)

Import Sample.

(** A codec failure while decoding: the key side raises [KeyDecodeError],
    the value side [ValueDecodeError], both carrying the message of the
    [ValueError] and chained to it. *)
Lemma decode_failure_wrapping_run :
  is_None (VBytes (bytes_of "oops")) = false /\
  loads_key Registry_default None (VBytes (bytes_of "oops")) json
    = ([ELoads json (VBytes (bytes_of "oops"))],
       Raise (mk_exc KeyDecodeError "Expecting value"
                (Some (ValueError "Expecting value")))) /\
  loads_value Registry_default None (VBytes (bytes_of "oops")) None
    = ([ELoads json (VBytes (bytes_of "oops"))],
       Raise (mk_exc ValueDecodeError "Expecting value"
                (Some (ValueError "Expecting value")))).
Proof.
  split; [reflexivity |].
  destruct (decode_failure_wrapping (caps := caps)
              Registry_default None
              (VBytes (bytes_of "oops")) json eq_refl) as (Hk & _ & _ & _).
  destruct (decode_failure_wrapping (caps := caps)
              Registry_default None
              (VBytes (bytes_of "oops")) None eq_refl) as (_ & Hv & _ & _).
  split; [exact (Hk _ _ eq_refl) | exact (Hv _ _ eq_refl)].
Defined.

(** C1 as stated fails: a [KeyboardInterrupt] raised by the codec while
    decoding leaves [loads_key] and [loads_value] as it is; it is neither
    wrapped in a decode error nor a [MemoryError]. *)
Lemma decode_interrupt_propagates :
  loads_key (caps := interrupted) Registry_default None (VBytes []) None
    = ([ELoads None (VBytes [])],
       Raise (mk_exc KeyboardInterrupt EmptyString None)) /\
  loads_value (caps := interrupted) Registry_default None (VBytes []) None
    = ([ELoads json (VBytes [])],
       Raise (mk_exc KeyboardInterrupt EmptyString None)) /\
  exc_class (mk_exc KeyboardInterrupt EmptyString None) <> KeyDecodeError /\
  exc_class (mk_exc KeyboardInterrupt EmptyString None) <> ValueDecodeError /\
  is_MemoryError (mk_exc KeyboardInterrupt EmptyString None) = false.
Proof. repeat split; discriminate. Defined.

(** With key and value default 'json' and per-call codec 'raw', the key is
    encoded with 'json' and the value with 'raw'. *)
Lemma dumps_override_asymmetry_run :
  isinstance (VStr "k") TyModelT = false /\
  truthy_codec raw = true /\
  dumps_key json_registry (VStr "k") raw default_skip
    = ([EDumps json (VStr "k")], Ok (VBytes (quoted "k"))) /\
  dumps_value json_registry (VStr "k") raw default_skip
    = ([EDumps raw (VStr "k")], Ok (VBytes (bytes_of "k"))).
Proof.
  split; [reflexivity | split; [reflexivity |]].
  destruct (dumps_override_asymmetry (caps := caps)
              json_registry (VStr "k") raw default_skip
              eq_refl eq_refl) as (Hk & _ & Hv).
  split; [exact Hk | exact Hv].
Defined.


(** Bytes written by an [Account] with 'json', read with 'json' and target
    type [Order] on either channel, or handed to [_loads_model] with target
    type [Payment], which declares no codec. *)
Lemma tag_overrides_target_run :
  Account <> Order /\
  is_None (VBytes account_bytes) = false /\
  isinstance (VBytes account_bytes) TyModelT = false /\
  recognized_tag account_data = Ok (Some Account) /\
  model_init Account account_data = Ok account_data /\
  snd (loads_key Registry_default (Some (ArgModel Order)) (VBytes account_bytes) json)
    = Ok (VModel Account account_data) /\
  snd (loads_value Registry_default (Some (ArgModel Order)) (VBytes account_bytes) None)
    = Ok (VModel Account account_data) /\
  snd (_loads_model (Some (ArgModel Payment)) json (VBytes account_bytes))
    = Ok (VModel Account account_data) /\
  ~ instance_of (VModel Account account_data) Order.
Proof.
  assert (Hdistinct : Account <> Order) by discriminate.
  assert (Hdistinct' : Account <> Payment) by discriminate.
  split; [exact Hdistinct |].
  do 4 (split; [reflexivity |]).
  destruct (tag_overrides_target (caps := caps)
              Registry_default Account Order
              (VBytes account_bytes) json None account_data account_data
              Hdistinct eq_refl eq_refl eq_refl eq_refl)
    as (Hk & _ & _ & _ & Hnot).
  destruct (tag_overrides_target (caps := caps)
              Registry_default Account Order
              (VBytes account_bytes) None None account_data account_data
              Hdistinct eq_refl eq_refl eq_refl eq_refl)
    as (_ & Hv & _ & _ & _).
  destruct (tag_overrides_target (caps := caps)
              Registry_default Account Payment
              (VBytes account_bytes) None json account_data account_data
              Hdistinct' eq_refl eq_refl eq_refl eq_refl)
    as (_ & _ & Hm & _ & _).
  split; [exact (Hk eq_refl) |].
  split; [exact (Hv eq_refl) |].
  split; [exact (Hm eq_refl) | exact Hnot].
Defined.

(** C5 as stated fails: bytes written by an [Account] carry its tag, yet
    read with target type [Order] they come back as an [Order] when the
    codec the decode path selects does not expose the tag: [Order] declares
    'raw' in [_loads_model], and the key channel of [Registry()] has no
    codec. *)
Lemma tag_unseen_by_selected_codec :
  model_dumps Account account_data json = Ok (VBytes account_bytes) /\
  codec_loads json (VBytes account_bytes) = Ok account_data /\
  recognized_tag account_data = Ok (Some Account) /\
  _loads_model (Some (ArgModel Order)) None (VBytes account_bytes)
    = ([ELoads raw (VBytes account_bytes);
        EMaybeNamespace (VBytes account_bytes);
        EConstruct Order (VBytes account_bytes)],
       Ok (VModel Order (VBytes account_bytes))) /\
  loads_key Registry_default (Some (ArgModel Order)) (VBytes account_bytes) None
    = ([ELoads None (VBytes account_bytes);
        EMaybeReconstruct (VBytes account_bytes);
        EConstruct Order (VBytes account_bytes)],
       Ok (VModel Order (VBytes account_bytes))) /\
  instance_of (VModel Order (VBytes account_bytes)) Order /\
  ~ instance_of (VModel Order (VBytes account_bytes)) Account.
Proof.
  do 5 (split; [reflexivity |]).
  split; [now exists (VBytes account_bytes) |].
  intros [fields Heq]. discriminate Heq.
Defined.

(** With no codec and no target type, a text input comes back as bytes from
    [loads_value] and unchanged from [loads_key]. *)
Lemma default_target_type_run :
  is_None (VStr "abc") = false /\
  isinstance (VStr "abc") TyModelT = false /\
  loads_value none_registry None (VStr "abc") None
    = ([ELoads None (VStr "abc"); EMaybeReconstruct (VStr "abc");
        EWantBytes (VStr "abc")],
       Ok (VBytes (bytes_of "abc"))) /\
  loads_key none_registry None (VStr "abc") None
    = ([ELoads None (VStr "abc"); EMaybeReconstruct (VStr "abc")],
       Ok (VStr "abc")).
Proof.
  do 2 (split; [reflexivity |]).
  destruct (default_target_type (caps := caps)
              none_registry (VStr "abc") None eq_refl eq_refl)
    as (_ & Hv & Hk).
  split; [exact (Hv _ _ _ eq_refl eq_refl) | exact (Hk _ _ eq_refl)].
Defined.

Lemma dumps_bytes_passthrough_run :
  compat_want_bytes (VBytes (bytes_of "abc")) = Ok (VBytes (bytes_of "abc")) /\
  dumps_key json_registry (VBytes (bytes_of "abc")) raw default_skip
    = ([EWantBytes (VBytes (bytes_of "abc"))], Ok (VBytes (bytes_of "abc"))) /\
  dumps_value json_registry (VBytes (bytes_of "abc")) raw default_skip
    = ([], Ok (VBytes (bytes_of "abc"))).
Proof.
  split; [reflexivity |].
  destruct (dumps_bytes_passthrough (caps := caps)
              json_registry (bytes_of "abc") raw eq_refl)
    as (Hk & Hv & _).
  split; [exact Hk | exact Hv].
Defined.

Lemma dumps_None_run :
  truthy_codec (key_serializer Registry_default) = false /\
  truthy_codec (codec_or None (value_serializer none_registry)) = false /\
  dumps_key Registry_default VNone json default_skip = ([], Ok VNone) /\
  dumps_value none_registry VNone None default_skip = ([], Ok VNone) /\
  dumps_value Registry_default VNone None default_skip
    = ([EDumps json VNone], Ok (VBytes (bytes_of "null"))).
Proof.
  do 2 (split; [reflexivity |]).
  destruct (dumps_None (caps := caps)
              Registry_default json) as (Hk & _ & _ & _).
  destruct (dumps_None (caps := caps)
              none_registry None) as (_ & Hv & _ & _).
  destruct (dumps_None (caps := caps)
              Registry_default None) as (_ & _ & _ & Hd).
  split; [exact (Hk eq_refl _) |].
  split; [exact (Hv eq_refl _) | exact (Hd eq_refl)].
Defined.

(** C8 as stated fails: with a codec resolved, a [None] key or value is
    handed to the codec, and what comes back is not [None]. *)
Lemma dumps_None_serialized :
  dumps_key json_registry VNone None default_skip
    = ([EDumps json VNone], Ok (VBytes (bytes_of "null"))) /\
  dumps_value Registry_default VNone None default_skip
    = ([EDumps json VNone], Ok (VBytes (bytes_of "null"))) /\
  snd (dumps_key json_registry VNone None default_skip) <> Ok VNone /\
  snd (dumps_value Registry_default VNone None default_skip) <> Ok VNone.
Proof. repeat split; discriminate. Defined.



(** *** Runs for the error behaviour, call discipline and round trips *)

Lemma codec_failure_stops_decode_run :
  is_None (VBytes (bytes_of "oops")) = false /\
  isinstance (VBytes (bytes_of "oops")) TyModelT = false /\
  is_Exception (ValueError "Expecting value") = true /\
  is_MemoryError (ValueError "Expecting value") = false /\
  loads_key Registry_default (Some ArgStr) (VBytes (bytes_of "oops")) json
    = ([ELoads json (VBytes (bytes_of "oops"))],
       Raise (mk_exc KeyDecodeError "Expecting value"
                (Some (ValueError "Expecting value")))) /\
  loads_value Registry_default (Some ArgStr) (VBytes (bytes_of "oops")) json
    = ([ELoads json (VBytes (bytes_of "oops"))],
       Raise (mk_exc ValueDecodeError "Expecting value"
                (Some (ValueError "Expecting value")))).
Proof.
  do 4 (split; [reflexivity |]).
  destruct (codec_failure_stops_decode (caps := caps)
              Registry_default (Some ArgStr) (VBytes (bytes_of "oops")) json
              (ValueError "Expecting value") eq_refl eq_refl eq_refl eq_refl)
    as (Hk & Hv).
  split; [exact (Hk eq_refl) | exact (Hv eq_refl)].
Defined.

Lemma model_input_needs_model_target_run :
  (forall target, @None ModelArg <> Some (ArgModel target)) /\
  exists msg,
    loads_key Registry_default None (VModel Account account_data) json
      = ([], Raise (mk_exc KeyDecodeError msg
                      (Some (mk_exc AttributeError msg None)))) /\
    loads_value Registry_default None (VModel Account account_data) json
      = ([], Raise (mk_exc ValueDecodeError msg
                      (Some (mk_exc AttributeError msg None)))).
Proof.
  assert (Hnot : forall target, @None ModelArg <> Some (ArgModel target))
    by discriminate.
  split; [exact Hnot |].
  exact (model_input_needs_model_target (caps := caps)
           Registry_default None Account account_data json Hnot).
Defined.

Lemma decode_raises_only_run :
  loads_key Registry_default None (VBytes (bytes_of "oops")) json
    = ([ELoads json (VBytes (bytes_of "oops"))],
       Raise (mk_exc KeyDecodeError "Expecting value"
                (Some (ValueError "Expecting value")))) /\
  ((exc_class (mk_exc KeyDecodeError "Expecting value"
                 (Some (ValueError "Expecting value"))) = KeyDecodeError /\
    exists e0,
      exc_cause (mk_exc KeyDecodeError "Expecting value"
                   (Some (ValueError "Expecting value"))) = Some e0 /\
      exc_str (mk_exc KeyDecodeError "Expecting value"
                 (Some (ValueError "Expecting value"))) = exc_str e0) \/
   is_MemoryError (mk_exc KeyDecodeError "Expecting value"
                     (Some (ValueError "Expecting value"))) = true \/
   is_Exception (mk_exc KeyDecodeError "Expecting value"
                   (Some (ValueError "Expecting value"))) = false).
Proof.
  split; [reflexivity |].
  destruct (decode_raises_only (caps := caps)
              Registry_default None (VBytes (bytes_of "oops")) json)
    as (Hk & _).
  exact (Hk _ _ eq_refl).
Defined.

(** With [skip=()] bytes reach the 'json' codec, which rejects them. *)
Lemma encode_raises_unwrapped_run :
  dumps_value Registry_default (VBytes (bytes_of "abc")) None []
    = ([EDumps json (VBytes (bytes_of "abc"))],
       Raise (TypeError "object is not JSON serializable")) /\
  ((exists c,
      [EDumps json (VBytes (bytes_of "abc"))]
        = [EDumps c (VBytes (bytes_of "abc"))] /\
      codec_dumps c (VBytes (bytes_of "abc"))
        = Raise (TypeError "object is not JSON serializable")) \/
   (exists cls fields c,
      VBytes (bytes_of "abc") = VModel cls fields /\
      [EDumps json (VBytes (bytes_of "abc"))]
        = [EModelDumps (VBytes (bytes_of "abc")) c] /\
      model_dumps cls fields c
        = Raise (TypeError "object is not JSON serializable"))).
Proof.
  split; [reflexivity |].
  destruct (encode_raises_unwrapped (caps := caps)
              Registry_default (VBytes (bytes_of "abc")) None [])
    as (Hv & _).
  exact (Hv _ _ eq_refl).
Defined.

Lemma model_target_returns_model_run :
  is_None (VBytes account_bytes) = false /\
  loads_key Registry_default (Some (ArgModel Order)) (VBytes account_bytes) json
    = ([ELoads json (VBytes account_bytes); EMaybeReconstruct account_data;
        EConstruct Account account_data],
       Ok (VModel Account account_data)) /\
  exists c fields,
    VModel Account account_data = VModel c fields /\
    ((exists d,
        In (EConstruct c d)
           [ELoads json (VBytes account_bytes);
            EMaybeReconstruct account_data;
            EConstruct Account account_data] /\
        model_init c d = Ok fields) \/
     (exists codec,
        codec_loads codec (VBytes account_bytes)
          = Ok (VModel Account account_data))).
Proof.
  do 2 (split; [reflexivity |]).
  destruct (model_target_returns_model (caps := caps)
              Registry_default Order (VBytes account_bytes) json eq_refl)
    as (Hk & _).
  exact (Hk _ _ eq_refl).
Defined.

(** With [skip=(ModelT,)] a model instance is not serialized although its
    class declares a codec; with [skip=(object,)] a [None] key stays
    [None] although the registry has a key codec. *)
Lemma skip_bypasses_codec_run :
  isinstance_any (VModel Order account_data) [TyModelT] = true /\
  isinstance_any VNone [TyObject] = true /\
  dumps_value json_registry (VModel Order account_data) None [TyModelT]
    = ([], Ok (VModel Order account_data)) /\
  dumps_key json_registry (VModel Order account_data) None [TyModelT]
    = ([EWantBytes (VModel Order account_data)],
       Ok (VModel Order account_data)) /\
  dumps_key json_registry VNone None [TyObject] = ([], Ok VNone).
Proof.
  do 2 (split; [reflexivity |]).
  destruct (skip_bypasses_codec (caps := caps)
              json_registry (VModel Order account_data) None [TyModelT]
              eq_refl) as (Hv & Hk).
  destruct (skip_bypasses_codec (caps := caps)
              json_registry VNone None [TyObject] eq_refl) as (_ & Hn).
  split; [exact Hv | split; [exact Hk | exact Hn]].
Defined.

Lemma model_without_codec_not_serialized_run :
  truthy_codec (options_serializer Account) = false /\
  truthy_codec (codec_or None (value_serializer none_registry)) = false /\
  truthy_codec (key_serializer none_registry) = false /\
  dumps_value none_registry (VModel Account account_data) None default_skip
    = ([], Ok (VModel Account account_data)) /\
  dumps_key none_registry (VModel Account account_data) None default_skip
    = ([EWantBytes (VModel Account account_data)],
       Ok (VModel Account account_data)).
Proof.
  do 3 (split; [reflexivity |]).
  destruct (model_without_codec_not_serialized (caps := caps)
              none_registry Account account_data None default_skip eq_refl)
    as (Hv & Hk).
  split; [exact (Hv eq_refl) | exact (Hk eq_refl)].
Defined.

(** An [Account] written to either channel and read back with target type
    [Order]. *)
Lemma model_roundtrip_run :
  truthy_codec (options_serializer Account) = false /\
  truthy_codec json = true /\
  model_dumps Account account_data json = Ok (VBytes account_bytes) /\
  codec_loads json (VBytes account_bytes) = Ok account_data /\
  recognized_tag account_data = Ok (Some Account) /\
  model_init Account account_data = Ok account_data /\
  snd (out <- dumps_value json_registry (VModel Account account_data) None
                default_skip ;;
       loads_value json_registry (Some (ArgModel Order)) out None)
    = Ok (VModel Account account_data) /\
  snd (out <- dumps_key json_registry (VModel Account account_data) raw
                default_skip ;;
       loads_key json_registry (Some (ArgModel Order)) out None)
    = Ok (VModel Account account_data).
Proof.
  do 6 (split; [reflexivity |]).
  destruct (model_roundtrip (caps := caps)
              json_registry Account Order account_data account_data
              account_bytes json None raw
              eq_refl eq_refl eq_refl eq_refl eq_refl eq_refl)
    as (Hv & Hk).
  split; [exact (Hv eq_refl) | exact (Hk eq_refl)].
Defined.

Lemma primitive_roundtrip_run :
  isinstance (VInt 7) TyModelT = false /\
  isinstance (VInt 7) TyBytes = false /\
  truthy_codec json = true /\
  codec_dumps json (VInt 7) = Ok (VBytes (bytes_of "7")) /\
  codec_loads json (VBytes (bytes_of "7")) = Ok (VInt 7) /\
  recognized_tag (VInt 7) = Ok None /\
  snd (out <- dumps_key json_registry (VInt 7) raw default_skip ;;
       loads_key json_registry None out None) = Ok (VInt 7).
Proof.
  do 6 (split; [reflexivity |]).
  destruct (primitive_roundtrip (caps := caps)
              json_registry (VInt 7) (bytes_of "7") json None raw
              eq_refl eq_refl eq_refl eq_refl eq_refl eq_refl)
    as (Hk & _).
  exact (Hk eq_refl).
Defined.

Lemma falsy_override_is_no_override_run :
  truthy_codec (Some (CodecName EmptyString)) = false /\
  loads_value Registry_default None (VBytes (bytes_of "7"))
    (Some (CodecName EmptyString))
    = loads_value Registry_default None (VBytes (bytes_of "7")) None /\
  dumps_value Registry_default (VInt 7) (Some (CodecName EmptyString))
    default_skip
    = dumps_value Registry_default (VInt 7) None default_skip.
Proof.
  split; [reflexivity |].
  destruct (falsy_override_is_no_override (caps := caps)
              Registry_default None (VBytes (bytes_of "7"))
              (Some (CodecName EmptyString)) default_skip eq_refl)
    as (_ & Hv & _).
  destruct (falsy_override_is_no_override (caps := caps)
              Registry_default None (VInt 7)
              (Some (CodecName EmptyString)) default_skip eq_refl)
    as (_ & _ & Hd).
  split; [exact Hv | exact Hd].
Defined.

Lemma untagged_builds_target_run :
  is_None (VBytes Plain.plain_bytes) = false /\
  isinstance (VBytes Plain.plain_bytes) TyModelT = false /\
  isinstance Plain.plain_data TyModelT = false /\
  recognized_tag (Capabilities := Plain.caps) Plain.plain_data = Ok None /\
  model_init (Capabilities := Plain.caps) Account Plain.plain_data
    = Ok Plain.plain_data /\
  loads_key (caps := Plain.caps) Registry_default (Some (ArgModel Account))
    (VBytes Plain.plain_bytes) json
    = ([ELoads json (VBytes Plain.plain_bytes);
        EMaybeReconstruct Plain.plain_data;
        EConstruct Account Plain.plain_data],
       Ok (VModel Account Plain.plain_data)) /\
  loads_value (caps := Plain.caps) Registry_default (Some (ArgModel Account))
    (VBytes Plain.plain_bytes) None
    = ([ELoads json (VBytes Plain.plain_bytes);
        EMaybeReconstruct Plain.plain_data;
        EConstruct Account Plain.plain_data],
       Ok (VModel Account Plain.plain_data)).
Proof.
  do 5 (split; [reflexivity |]).
  destruct (untagged_builds_target (caps := Plain.caps)
              Registry_default Account (VBytes Plain.plain_bytes)
              Plain.plain_data Plain.plain_data json json
              eq_refl eq_refl eq_refl eq_refl eq_refl) as (Hk & _ & _).
  destruct (untagged_builds_target (caps := Plain.caps)
              Registry_default Account (VBytes Plain.plain_bytes)
              Plain.plain_data Plain.plain_data None json
              eq_refl eq_refl eq_refl eq_refl eq_refl) as (_ & Hv & _).
  split; [exact (Hk eq_refl) | exact (Hv eq_refl)].
Defined.

Lemma bytes_roundtrip_run :
  codec_loads (key_serializer none_registry) (VBytes (bytes_of "abc"))
    = Ok (VBytes (bytes_of "abc")) /\
  recognized_tag (VBytes (bytes_of "abc")) = Ok None /\
  compat_want_bytes (VBytes (bytes_of "abc")) = Ok (VBytes (bytes_of "abc")) /\
  snd (out <- dumps_key none_registry (VBytes (bytes_of "abc")) json
                default_skip ;;
       loads_key none_registry (Some ArgBytes) out None)
    = Ok (VBytes (bytes_of "abc")).
Proof.
  do 3 (split; [reflexivity |]).
  rewrite (bytes_roundtrip (caps := caps) none_registry (bytes_of "abc") json
             eq_refl eq_refl eq_refl).
  reflexivity.
Defined.

Lemma default_registry_channels_run :
  isinstance (VStr "abc") TyModelT = false /\
  is_None (VStr "abc") = false /\
  isinstance (VStr "abc") TyBytes = false /\
  dumps_key (Registry_init None None) (VStr "abc") json default_skip
    = ([EWantBytes (VStr "abc")], Ok (VBytes (bytes_of "abc"))) /\
  dumps_value (Registry_init None None) (VStr "abc") None default_skip
    = ([EDumps json (VStr "abc")], Ok (VBytes (quoted "abc"))) /\
  dumps_value (Registry_init None (Some None)) (VStr "abc") None default_skip
    = ([], Ok (VStr "abc")).
Proof.
  do 3 (split; [reflexivity |]).
  destruct (default_registry_channels (caps := caps)
              (VStr "abc") None json None eq_refl eq_refl)
    as (Hk & _ & _ & Hd).
  destruct (Hd eq_refl) as (Hv & Hn).
  split; [exact Hk | split; [exact Hv | exact Hn]].
Defined.
